(** * Tuckr: the dotfile handler ([app/dotfilehandler.py])

    A shallow embedding of the module and of the part of Python's
    [configparser], [os] and [builtins] it calls, followed by the properties
    of its four actions and of the configuration loader.

    The module keeps one global, [config]; every action reads it and talks to
    the outside through [print], [open] and [os.system].  The embedding
    threads the global and the log of what was printed and spawned through a
    state-and-exception monad; the file system, the INI reader and the exit
    statuses of spawned processes are the [World] the code runs in.

    A Python string is a [string] here, its characters being code points
    below 256. *)

From Stdlib Require Import String Ascii List ZArith Bool Lia.
Import ListNotations.

Open Scope string_scope.
Open Scope list_scope.

(** ** Python strings *)

Module Str.

(** ['\n'] *)
Definition LF : ascii := "010"%char.
Definition nl : string := String LF EmptyString.

(** [s.startswith(p)] *)
Fixpoint startswith (p s : string) : bool :=
  match p, s with
  | EmptyString, _ => true
  | String _ _, EmptyString => false
  | String a p', String b s' => Ascii.eqb a b && startswith p' s'
  end.

(** [sub in s] *)
Fixpoint contains (sub s : string) : bool :=
  startswith sub s ||
  match s with
  | EmptyString => false
  | String _ s' => contains sub s'
  end.

(** [s.split(sep)] for a separator of one character: the fields between the
    separators, never an empty list. *)
Fixpoint split (sep : ascii) (s : string) : list string :=
  match s with
  | EmptyString => [EmptyString]
  | String c s' =>
      if Ascii.eqb c sep then EmptyString :: split sep s'
      else match split sep s' with
           | field :: fields => String c field :: fields
           | [] => [String c EmptyString]
           end
  end.

(** [s.replace(old, new)] for a non-empty [old]: occurrences are taken left
    to right and do not overlap.  [skip] counts the characters of an
    occurrence already replaced that are still to be passed over. *)
Fixpoint replace_from (old new : string) (skip : nat) (s : string) : string :=
  match s with
  | EmptyString => EmptyString
  | String c s' =>
      match skip with
      | S k => replace_from old new k s'
      | O =>
          if startswith old s
          then new ++ replace_from old new (String.length old - 1) s'
          else String c (replace_from old new 0 s')
      end
  end.

Definition replace (old new s : string) : string := replace_from old new 0 s.

(** [c.lower()] for a code point below 256: the capital letters are
    [A]-[Z] and, but for the multiplication sign, the code points 192 to
    222. *)
Definition lower_char (c : ascii) : ascii :=
  let n := nat_of_ascii c in
  if (Nat.leb 65 n && Nat.leb n 90)
     || (Nat.leb 192 n && Nat.leb n 222 && negb (Nat.eqb n 215))
  then ascii_of_nat (n + 32)
  else c.

(** [s.lower()] *)
Fixpoint lower (s : string) : string :=
  match s with
  | EmptyString => EmptyString
  | String c s' => String (lower_char c) (lower s')
  end.

(** ['\r'] *)
Definition CR : ascii := "013"%char.

(** What the replacement of one character by another does, character by
    character. *)
Fixpoint subst_char (a b : ascii) (s : string) : string :=
  match s with
  | EmptyString => EmptyString
  | String c s' => String (if Ascii.eqb c a then b else c) (subst_char a b s')
  end.

End Str.

(** ** Exceptions and the outside world *)

Inductive exn : Type :=
| KeyError (key : string)
| IndexError
| AttributeError (what : string)
| FileNotFoundError (filename : string)
| PermissionError (filename : string)
| UnicodeDecodeError
| ParsingError (source : string)
| NoSectionError (section : string)
| NoOptionError (name section : string)
| InterpolationSyntaxError (name section : string)
| InterpolationMissingOptionError (name section reference : string)
| InterpolationDepthError (name section : string).

(** [except KeyError] *)
Definition is_KeyError (e : exn) : bool :=
  match e with KeyError _ => true | _ => false end.

(** [except OSError]: the two file errors are its subclasses. *)
Definition is_OSError (e : exn) : bool :=
  match e with FileNotFoundError _ | PermissionError _ => true | _ => false end.

(** The subclasses of [configparser.InterpolationError]; none of them is a
    [KeyError] or an [OSError]. *)
Definition is_InterpolationError (e : exn) : bool :=
  match e with
  | InterpolationSyntaxError _ _
  | InterpolationMissingOptionError _ _ _
  | InterpolationDepthError _ _ => true
  | _ => false
  end.

(** A bare [except:] *)
Definition any_exception (_ : exn) : bool := true.

Inductive signal (A : Type) : Type :=
| Return (a : A)
| Raise (e : exn).
Arguments Return {A} a.
Arguments Raise {A} e.

(** What the process did that can be seen from outside, oldest first. *)
Inductive event : Type :=
| Printed (text : string)
| Spawned (command : string).

(** The commands handed to [os.system], in order. *)
Fixpoint commands (l : list event) : list string :=
  match l with
  | [] => []
  | Spawned c :: l' => c :: commands l'
  | Printed _ :: l' => commands l'
  end.

(** The texts handed to [print], in order. *)
Fixpoint notices (l : list event) : list string :=
  match l with
  | [] => []
  | Printed t :: l' => t :: notices l'
  | Spawned _ :: l' => notices l'
  end.

(** ** configparser.ConfigParser

    A parser holds the options of the [DEFAULT] section and the named
    sections, each a dictionary in insertion order.  Option names are stored
    as [optionxform] leaves them (lower case; every name the module looks up
    is written in lower case or read back from the parser), and values as
    the file gave them: [ConfigParser()] interpolates when a value is
    fetched, not when it is stored. *)

Definition dict := list (string * string).

Fixpoint dict_get (d : dict) (k : string) : option string :=
  match d with
  | [] => None
  | (k', v) :: d' => if String.eqb k' k then Some v else dict_get d' k
  end.

Definition dict_mem (d : dict) (k : string) : bool :=
  match dict_get d k with Some _ => true | None => false end.

Definition dict_keys (d : dict) : list string := map fst d.

Record ConfigParser : Type := {
  defaults : dict;
  sections : list (string * dict)
}.

(** [configparser.ConfigParser()] *)
Definition new_parser : ConfigParser := {| defaults := []; sections := [] |}.

Fixpoint find_section (l : list (string * dict)) (name : string) : option dict :=
  match l with
  | [] => None
  | (n, d) :: l' => if String.eqb n name then Some d else find_section l' name
  end.

Definition default_section : string := "DEFAULT".

Definition has_section (p : ConfigParser) (name : string) : bool :=
  match find_section (sections p) name with Some _ => true | None => false end.

(** [parser.has_option(section, option)] *)
Definition has_option (p : ConfigParser) (section key : string) : bool :=
  if String.eqb section "" || String.eqb section default_section
  then dict_mem (defaults p) key
  else match find_section (sections p) section with
       | None => false
       | Some d => dict_mem d key || dict_mem (defaults p) key
       end.

(** [parser.options(section)]: the section's own names, then the names of
    [DEFAULT] it does not define itself. *)
Definition options (p : ConfigParser) (section : string) : list string :=
  match find_section (sections p) section with
  | None => []
  | Some d =>
      dict_keys d ++ filter (fun k => negb (dict_mem d k)) (dict_keys (defaults p))
  end.

(** The stored value [parser.get(section, option, raw=True)] finds, and
    the map interpolation looks names up in: the section's own value, else
    the one of [DEFAULT]. *)
Definition get_value (p : ConfigParser) (section key : string) : option string :=
  match find_section (sections p) section with
  | None => dict_get (defaults p) key
  | Some d =>
      match dict_get d key with
      | Some v => Some v
      | None => dict_get (defaults p) key
      end
  end.

(** *** BasicInterpolation

    [_interpolate_some] goes through a value from left to right.  The
    scanner below does the same one character at a time; its state says how
    much of a [%%] or of a [%(name)s] has been read. *)

Inductive scanning : Type :=
| Plain                       (* outside any reference *)
| Percent                     (* after [%] *)
| Name (read : string)        (* after [%(] and the characters read *)
| Closed (name : string).     (* after [%(name)] *)

Definition MAX_INTERPOLATION_DEPTH : nat := 10.

Section Interpolation.

(** [map]: the options in sight; [name] and [section]: what is being
    fetched, for the error raised. *)
Variable map : string -> option string.
Variable name section : string.

Definition syntax_error : signal string :=
  Raise (InterpolationSyntaxError name section).

(** [accum.append(...)] before what the rest of the value gives *)
Definition emit_then (out : string) (rest : signal string) : signal string :=
  match rest with
  | Return s => Return (out ++ s)%string
  | Raise e => Raise e
  end.

(** The loop of [_interpolate_some]; [deeper] is the call one level down,
    made for a referenced value that itself holds a [%]. *)
Fixpoint scan (deeper : string -> signal string) (state : scanning) (rest : string)
  : signal string :=
  match rest with
  | EmptyString =>
      match state with
      | Plain => Return EmptyString
      | _ => syntax_error
      end
  | String c rest' =>
      match state with
      | Plain =>
          if Ascii.eqb c "%" then scan deeper Percent rest'
          else emit_then (String c EmptyString) (scan deeper Plain rest')
      | Percent =>
          if Ascii.eqb c "%" then emit_then "%" (scan deeper Plain rest')
          else if Ascii.eqb c "(" then scan deeper (Name EmptyString) rest'
          else syntax_error
      | Name read =>
          if Ascii.eqb c ")" then
            match read with
            | EmptyString => syntax_error
            | _ => scan deeper (Closed read) rest'
            end
          else scan deeper (Name (read ++ String c EmptyString)%string) rest'
      | Closed var =>
          if Ascii.eqb c "s" then
            match map (Str.lower var) with
            | None =>
                Raise (InterpolationMissingOptionError name section (Str.lower var))
            | Some v =>
                match (if Str.contains "%" v then deeper v else Return v) with
                | Return out => emit_then out (scan deeper Plain rest')
                | Raise e => Raise e
                end
            end
          else syntax_error
      end
  end.

(** [_interpolate_some] with [levels] levels left before [depth] passes
    [MAX_INTERPOLATION_DEPTH]. *)
Fixpoint interpolate_some (levels : nat) (rest : string) : signal string :=
  match levels with
  | O => Raise (InterpolationDepthError name section)
  | S levels' => scan (interpolate_some levels') Plain rest
  end.

End Interpolation.

(** [BasicInterpolation.before_get] *)
Definition before_get (p : ConfigParser) (section key value : string) : signal string :=
  interpolate_some (get_value p section) key section MAX_INTERPOLATION_DEPTH value.

(** [parser.get(section, option)] *)
Definition parser_get (p : ConfigParser) (section key : string) : signal string :=
  if negb (has_section p section) && negb (String.eqb section default_section)
  then Raise (NoSectionError section)
  else match get_value p section key with
       | Some value => before_get p section key value
       | None => Raise (NoOptionError key section)
       end.

(** [parser[name]] gives a proxy on the section; the proxy keeps the parser
    and the name. *)
Record SectionProxy : Type := {
  proxy_parser : ConfigParser;
  proxy_name : string
}.

(** [ConfigParser.__getitem__] *)
Definition parser_getitem (p : ConfigParser) (name : string) : signal SectionProxy :=
  if negb (String.eqb name default_section) && negb (has_section p name)
  then Raise (KeyError name)
  else Return {| proxy_parser := p; proxy_name := name |}.

(** [SectionProxy.__contains__] *)
Definition proxy_contains (s : SectionProxy) (key : string) : bool :=
  has_option (proxy_parser s) (proxy_name s) key.

(** [SectionProxy.__getitem__] *)
Definition proxy_getitem (s : SectionProxy) (key : string) : signal string :=
  if has_option (proxy_parser s) (proxy_name s) key
  then parser_get (proxy_parser s) (proxy_name s) key
  else Raise (KeyError key).

(** [SectionProxy.__iter__] *)
Definition proxy_iter (s : SectionProxy) : list string :=
  if String.eqb (proxy_name s) default_section
  then dict_keys (defaults (proxy_parser s))
  else options (proxy_parser s) (proxy_name s).

(** [d[k]] on a plain dictionary *)
Definition dict_getitem (d : dict) (k : string) : signal string :=
  match dict_get d k with
  | Some v => Return v
  | None => Raise (KeyError k)
  end.

(** [l[i]] on a list *)
Definition list_getitem (l : list string) (i : nat) : signal string :=
  match nth_error l i with
  | Some x => Return x
  | None => Raise IndexError
  end.

(** ** The world the module runs in *)

(** What there is to read in a file that opens: its characters as the
    encoding in force decodes them, or bytes that do not decode. *)
Inductive contents : Type :=
| Decoded (chars : string)
| Undecodable.

Inductive file : Type :=
| NoSuchFile
| NotReadable
| Text (body : contents).

Record World : Type := {
  (** what is at a path *)
  fs : string -> file;
  (** [ConfigParser._read]: the body of a file read into a parser; the
      parser as it is left, and the exception raised if any *)
  ini_read : contents -> ConfigParser -> ConfigParser * option exn;
  (** the status [os.system] returns for a command, given what happened
      before *)
  exit_status : list event -> string -> Z
}.

(** ** The module's state and its monad *)

Record State : Type := {
  config : ConfigParser;
  log : list event
}.

Definition M (A : Type) : Type := State -> State * signal A.

Definition ret {A} (a : A) : M A := fun st => (st, Return a).

Definition raise {A} (e : exn) : M A := fun st => (st, Raise e).

Definition bind {A B} (m : M A) (k : A -> M B) : M B :=
  fun st =>
    match m st with
    | (st', Return a) => k a st'
    | (st', Raise e) => (st', Raise e)
    end.

Notation "x <- m ;; k" := (bind m (fun x => k))
  (at level 61, m at next level, right associativity).
Notation "m ;;; k" := (bind m (fun _ => k))
  (at level 61, right associativity).

Definition lift {A} (r : signal A) : M A := fun st => (st, r).

(** [try: body except <catches>: handler]; the handler starts from the state
    the body left. *)
Definition try_except {A} (body : M A) (catches : exn -> bool) (handler : M A) : M A :=
  fun st =>
    match body st with
    | (st', Return a) => (st', Return a)
    | (st', Raise e) => if catches e then handler st' else (st', Raise e)
    end.

(** [for x in xs: body x] *)
Fixpoint for_each {A} (xs : list A) (body : A -> M unit) : M unit :=
  match xs with
  | [] => ret tt
  | x :: xs' => body x ;;; for_each xs' body
  end.

Definition emit (e : event) : M unit :=
  fun st => ({| config := config st; log := log st ++ [e] |}, Return tt).

(** [print(text)] *)
Definition print (text : string) : M unit := emit (Printed text).

(** [os.system(command)]: the command runs to its end and its status comes
    back as a value. *)
Definition os_system (w : World) (command : string) : M Z :=
  fun st =>
    ({| config := config st; log := log st ++ [Spawned command] |},
     Return (exit_status w (log st) command)).

(** [open(path, 'r')], the handle being what there is to read *)
Definition open_ (w : World) (path : string) : M contents :=
  fun st =>
    match fs w path with
    | Text body => (st, Return body)
    | NoSuchFile => (st, Raise (FileNotFoundError path))
    | NotReadable => (st, Raise (PermissionError path))
    end.

(** What text mode makes of the line ends: [\r\n] and a lone [\r] are read
    as [\n]. *)
Fixpoint universal_newlines (chars : string) : string :=
  match chars with
  | EmptyString => EmptyString
  | String c rest =>
      if Ascii.eqb c Str.CR then
        match rest with
        | String d rest' =>
            if Ascii.eqb d Str.LF
            then String Str.LF (universal_newlines rest')
            else String Str.LF (universal_newlines rest)
        | EmptyString => String Str.LF EmptyString
        end
      else String c (universal_newlines rest)
  end.

(** [handle.read()]: the characters, line ends translated, or the error of
    the decoder. *)
Definition file_read (handle : contents) : M string :=
  match handle with
  | Decoded chars => ret (universal_newlines chars)
  | Undecodable => raise UnicodeDecodeError
  end.

(** [config[section]] on the module's global *)
Definition config_section (section : string) : M SectionProxy :=
  fun st => (st, parser_getitem (config st) section).

(** [config[section][key]] *)
Definition config_item (section key : string) : M string :=
  s <- config_section section ;;
  lift (proxy_getitem s key).

(** [config.read(filename)]: a file that cannot be opened is passed over in
    silence, as is any [OSError] while reading it. *)
Definition parser_read (w : World) (filename : string) : M unit :=
  fun st =>
    match fs w filename with
    | Text body =>
        match ini_read w body (config st) with
        | (p, None) => ({| config := p; log := log st |}, Return tt)
        | (p, Some e) =>
            ({| config := p; log := log st |},
             if is_OSError e then Return tt else Raise e)
        end
    | _ => (st, Return tt)
    end.

(** [Path.expanduser(s)] with a [str] for [self]: the method is called on the
    class, so the string stands where a path object is expected and the
    first attribute read from it is missing. *)
Definition Path_expanduser (self : string) : M string :=
  raise (AttributeError "str").

(** ** colorama *)

Module Fore.
Definition ESC : string := String (ascii_of_nat 27) EmptyString.
Definition RED : string := ESC ++ "[31m".
Definition GREEN : string := ESC ++ "[32m".
Definition RESET : string := ESC ++ "[39m".
End Fore.

(** ** app/dotfilehandler.py *)

Definition no_config_notice : string :=
  Fore.RED ++ "Error: No config file was found" ++ Fore.RESET.

Definition no_repo_notice : string :=
  Fore.RED
  ++ "Error: No dotfile repo was specified. Make sure you set it up in your tuckr.ini file."
  ++ Fore.RESET.

Definition running_notice (script : string) : string :=
  Str.nl ++ Fore.GREEN ++ "running " ++ script ++ Fore.RESET.

(** The statements at the top of the module. *)
Definition load_config (w : World) : M unit :=
  try_except
    (try_except
       (parser_read w "./tuckr.conf")
       any_exception
       (home <- Path_expanduser "~/.config/tuckr.conf" ;;
        parser_read w home))
    is_KeyError
    (print no_config_notice).

(** The state [config = configparser.ConfigParser()] leaves. *)
Definition fresh : State := {| config := new_parser; log := [] |}.

Definition import_module (w : World) : State * signal unit := load_config w fresh.

Definition clone_dotfiles (w : World) : M unit :=
  try_except
    (general <- config_section "GENERAL" ;;
     if proxy_contains general "dotfiles_repo" then
       general <- config_section "GENERAL" ;;
       if proxy_contains general "dotfiles_dest" then
         repo <- config_item "GENERAL" "dotfiles_repo" ;;
         dest <- config_item "GENERAL" "dotfiles_dest" ;;
         os_system w ("git clone " ++ repo ++ " " ++ dest) ;;; ret tt
       else
         repo <- config_item "GENERAL" "dotfiles_repo" ;;
         os_system w ("git clone " ++ repo ++ " $HOME/dotfiles") ;;; ret tt
     else
       cmd <- config_item "GENERAL" "clone_dotfiles_cmd" ;;
       os_system w cmd ;;; ret tt)
    is_KeyError
    (print no_repo_notice).

(** [pkgs.read().replace('\n', ' ')] *)
Definition collapse_newlines (text : string) : string :=
  Str.replace Str.nl " " text.

Definition install_packages (w : World) : M unit :=
  packages <- config_section "PACKAGES" ;;
  if proxy_contains packages "pkg_install_cmd" then
    path <- config_item "PACKAGES" "pkg_list" ;;
    pkgs <- open_ w path ;;
    text <- file_read pkgs ;;
    let pkgs := collapse_newlines text in
    prefix <- config_item "PACKAGES" "pkg_install_cmd" ;;
    os_system w (prefix ++ " " ++ pkgs) ;;; ret tt
  else ret tt.

(** One turn of the loop of [run_scripts]. *)
Definition run_script (w : World) (script : string) : M unit :=
  print (running_notice script) ;;;
  command <- config_item "SCRIPTS" script ;;
  os_system w ("sh -c " ++ command) ;;; ret tt.

Definition run_scripts (w : World) : M unit :=
  scripts <- config_section "SCRIPTS" ;;
  for_each (proxy_iter scripts) (run_script w).

Definition install_cmd : dict :=
  [("pip", "install --user"); ("npm", "install -g"); ("yarn", "global add")].

(** One turn of the loop of [install_from_list]. *)
Definition install_list (w : World) (list_ : string) : M unit :=
  if Str.contains "_list" list_ then
    cmd <- lift (list_getitem (Str.split "_"%char list_) 0) ;;
    try_except
      (path <- config_item "PACKAGES" list_ ;;
       list_file <- open_ w path ;;
       text <- file_read list_file ;;
       let list_file := collapse_newlines text in
       subcommand <- lift (dict_getitem install_cmd cmd) ;;
       os_system w (cmd ++ " " ++ subcommand ++ " " ++ list_file) ;;; ret tt)
      is_KeyError
      (ret tt)
  else ret tt.

Definition install_from_list (w : World) : M unit :=
  packages <- config_section "PACKAGES" ;;
  for_each (proxy_iter packages) (install_list w).

(** ** Reading the configuration as the actions do

    [present], [lookup] and [value_of] say what [key in config[section]]
    and [config[section][key]] answer; [false] stands for a missing section
    or key, and [None] for a fetch that raises. *)

Definition present (p : ConfigParser) (section key : string) : bool :=
  match parser_getitem p section with
  | Return s => proxy_contains s key
  | Raise _ => false
  end.

Definition lookup (p : ConfigParser) (section key : string) : signal string :=
  match parser_getitem p section with
  | Return s => proxy_getitem s key
  | Raise e => Raise e
  end.

Definition value_of (p : ConfigParser) (section key : string) : option string :=
  match parser_getitem p section with
  | Return s =>
      match proxy_getitem s key with
      | Return v => Some v
      | Raise _ => None
      end
  | Raise _ => None
  end.

(** What opening a path for reading raises, if anything. *)
Definition read_error (w : World) (path : string) : option exn :=
  match fs w path with
  | Text _ => None
  | NoSuchFile => Some (FileNotFoundError path)
  | NotReadable => Some (PermissionError path)
  end.

(** What [open(path, 'r')] and [read()] give together. *)
Definition read_text (w : World) (path : string) : signal string :=
  match fs w path with
  | Text (Decoded chars) => Return (universal_newlines chars)
  | Text Undecodable => Raise UnicodeDecodeError
  | NoSuchFile => Raise (FileNotFoundError path)
  | NotReadable => Raise (PermissionError path)
  end.

(** The state after one more event. *)
Definition after (st : State) (e : event) : State :=
  {| config := config st; log := log st ++ [e] |}.

(** The state after several more events. *)
Definition after_all (st : State) (l : list event) : State :=
  {| config := config st; log := log st ++ l |}.





(** The tool [install_from_list] reads off an option's name:
    [list_.split('_')[0]]. *)
Definition tool_of (list_ : string) : string :=
  hd EmptyString (Str.split "_"%char list_).

(** ** Worlds and configurations to run the module on *)

(** A file system with the given texts at the given paths and nothing
    elsewhere. *)
Definition files_of (l : list (string * string)) (path : string) : file :=
  match dict_get l path with
  | Some text => Text (Decoded text)
  | None => NoSuchFile
  end.

(** A world with those files in which every spawned command ends with
    [status]. *)
Definition world_of (l : list (string * string)) (status : Z) : World :=
  {| fs := files_of l;
     ini_read := fun _ p => (p, None);
     exit_status := fun _ _ => status |}.

(** The module once [config] holds [p], nothing printed or spawned yet. *)
Definition started (p : ConfigParser) : State := {| config := p; log := [] |}.

(** [[GENERAL]] with [dotfiles_repo] only. *)
Definition repo_only : ConfigParser :=
  {| defaults := [];
     sections := [("GENERAL", [("dotfiles_repo", "https://example.org/dots.git")])] |}.


(** [[SCRIPTS]] with two entries. *)
Definition two_scripts : ConfigParser :=
  {| defaults := [];
     sections := [("SCRIPTS", [("first", "false"); ("second", "true")])] |}.



(** [[PACKAGES]] with [pip_list=a.txt] and [npm_list=b.txt]. *)
Definition pip_and_npm : ConfigParser :=
  {| defaults := [];
     sections := [("PACKAGES", [("pip_list", "a.txt"); ("npm_list", "b.txt")])] |}.

(** [[PACKAGES]] with [pip_list=a.txt] and [foo_list=b.txt]. *)
Definition pip_and_foo : ConfigParser :=
  {| defaults := [];
     sections := [("PACKAGES", [("pip_list", "a.txt"); ("foo_list", "b.txt")])] |}.




(** A world as [world_of] makes it, but for the file at [bad], which opens
    and does not decode. *)
Definition world_garbled (bad : string) (l : list (string * string)) (status : Z) : World :=
  {| fs := fun path => if String.eqb path bad then Text Undecodable else files_of l path;
     ini_read := fun _ p => (p, None);
     exit_status := fun _ _ => status |}.

(** The list file ["x\ny\n"]. *)
Definition x_y : string := "x" ++ Str.nl ++ "y" ++ Str.nl.


(** Two worlds with the same files; their readers and exit statuses may
    differ. *)
Definition same_files (w1 w2 : World) : Prop :=
  forall path, fs w1 path = fs w2 path.

(** A command [install_from_list] can build: a tool of its table, the
    tool's subcommand and the collapsed text of some file. *)
Definition known_command (c : string) : Prop :=
  exists tool subcommand text,
    In (tool, subcommand) install_cmd
    /\ c = (tool ++ " " ++ subcommand ++ " " ++ collapse_newlines text)%string.

(** A world with a file at [./tuckr.conf] that the reader turns into [p],
    raising [problem] if one is given. *)
Definition world_with_conf (p : ConfigParser) (problem : option exn) : World :=
  {| fs := files_of [("./tuckr.conf", "[GENERAL]")];
     ini_read := fun _ _ => (p, problem);
     exit_status := fun _ _ => 0%Z |}.

(** [[PACKAGES]] with [pkg_list] only. *)
Definition list_only : ConfigParser :=
  {| defaults := [];
     sections := [("PACKAGES", [("pkg_list", "pkgs.txt")])] |}.


(** * Properties *)

(** ** The monad *)

Lemma state_eta (st : State) : {| config := config st; log := log st |} = st.
Proof. destruct st; reflexivity. Qed.

Lemma after_all_nil (st : State) : after_all st [] = st.
Proof. unfold after_all. rewrite app_nil_r. apply state_eta. Qed.

Lemma after_all_after (st : State) (l : list event) (e : event) :
  after (after_all st l) e = after_all st (l ++ [e]).
Proof. unfold after, after_all; simpl. now rewrite app_assoc. Qed.

Lemma after_all_app (st : State) (l1 l2 : list event) :
  after_all (after_all st l1) l2 = after_all st (l1 ++ l2).
Proof. unfold after_all; simpl. now rewrite app_assoc. Qed.

Lemma for_each_app {A} (xs ys : list A) (body : A -> M unit) (st : State) :
  for_each (xs ++ ys) body st =
  match for_each xs body st with
  | (st', Return _) => for_each ys body st'
  | (st', Raise e) => (st', Raise e)
  end.
Proof.
  revert st. induction xs as [|x xs IH]; intro st; simpl.
  - reflexivity.
  - unfold bind. destruct (body x st) as [st1 [[]|e]]; [apply IH | reflexivity].
Qed.

(** ** The mapping protocol *)

Lemma dict_mem_keys (d : dict) (k : string) :
  In k (dict_keys d) -> dict_mem d k = true.
Proof.
  unfold dict_mem. induction d as [|[k' v] d IH]; simpl; [tauto|].
  intros [->|H].
  - now rewrite String.eqb_refl.
  - destruct (String.eqb k' k); [reflexivity | now apply IH].
Qed.


Lemma section_getitem (p : ConfigParser) (name : string) :
  String.eqb name default_section = false ->
  parser_getitem p name =
  if has_section p name
  then Return {| proxy_parser := p; proxy_name := name |}
  else Raise (KeyError name).
Proof.
  intros H. unfold parser_getitem. rewrite H; simpl.
  now destruct (has_section p name).
Qed.


(** [config[section]] leaves the state alone and answers as the parser does. *)
Lemma config_section_run (section : string) (st : State) :
  config_section section st = (st, parser_getitem (config st) section).
Proof. reflexivity. Qed.

(** A missing section is reported under the section's name. *)
Lemma config_section_missing (section : string) (st : State) :
  String.eqb section default_section = false ->
  has_section (config st) section = false ->
  config_section section st = (st, Raise (KeyError section)).
Proof.
  intros Hd Hs. unfold config_section. now rewrite (section_getitem _ _ Hd), Hs.
Qed.

Lemma config_section_found (section : string) (st : State) :
  String.eqb section default_section = false ->
  has_section (config st) section = true ->
  config_section section st =
  (st, Return {| proxy_parser := config st; proxy_name := section |}).
Proof.
  intros Hd Hs. unfold config_section. now rewrite (section_getitem _ _ Hd), Hs.
Qed.

Lemma present_in_section (section key : string) (p : ConfigParser) :
  String.eqb section default_section = false ->
  has_section p section = true ->
  present p section key =
  proxy_contains {| proxy_parser := p; proxy_name := section |} key.
Proof.
  intros Hd Hs. unfold present. now rewrite (section_getitem _ _ Hd), Hs.
Qed.

Lemma absent_without_section (section key : string) (p : ConfigParser) :
  String.eqb section default_section = false ->
  has_section p section = false ->
  present p section key = false.
Proof.
  intros Hd Hs. unfold present. now rewrite (section_getitem _ _ Hd), Hs.
Qed.

Lemma present_needs_section (section key : string) (p : ConfigParser) :
  String.eqb section default_section = false ->
  present p section key = true ->
  has_section p section = true.
Proof.
  intros Hd Hp. destruct (has_section p section) eqn:Hs; [reflexivity|].
  now rewrite (absent_without_section _ _ _ Hd Hs) in Hp.
Qed.

(** [config[section][key]] leaves the state alone and answers as [lookup]
    says. *)
Lemma config_item_run (section key : string) (st : State) :
  config_item section key st = (st, lookup (config st) section key).
Proof.
  unfold config_item, lookup, bind, config_section, lift.
  now destruct (parser_getitem (config st) section).
Qed.

Lemma value_of_lookup (p : ConfigParser) (section key : string) :
  value_of p section key =
  match lookup p section key with
  | Return v => Some v
  | Raise _ => None
  end.
Proof.
  unfold value_of, lookup. now destruct (parser_getitem p section).
Qed.

Lemma value_of_some (p : ConfigParser) (section key v : string) :
  value_of p section key = Some v <-> lookup p section key = Return v.
Proof.
  rewrite value_of_lookup. destruct (lookup p section key); split; congruence.
Qed.

(** ** Strings *)

Lemma startswith_nil (s : string) : Str.startswith "" s = true.
Proof. now destruct s. Qed.

Lemma startswith_iff (p s : string) :
  Str.startswith p s = true <-> exists post, s = (p ++ post)%string.
Proof.
  revert s. induction p as [|a p IH]; intro s.
  - rewrite startswith_nil. split; [intros _; now exists s | reflexivity].
  - destruct s as [|b s]; simpl.
    + split; [discriminate | intros [post H]; discriminate H].
    + rewrite andb_true_iff, Ascii.eqb_eq, IH. split.
      * intros [-> [post ->]]. now exists post.
      * intros [post H]. injection H as -> ->. eauto.
Qed.

Lemma contains_unfold (sub s : string) :
  Str.contains sub s =
  Str.startswith sub s
  || match s with EmptyString => false | String _ s' => Str.contains sub s' end.
Proof. now destruct s. Qed.

Lemma contains_char_cons (a c : ascii) (s : string) :
  Str.contains (String a EmptyString) (String c s) =
  Ascii.eqb a c || Str.contains (String a EmptyString) s.
Proof.
  rewrite contains_unfold. cbn [Str.startswith].
  now rewrite ?startswith_nil, andb_true_r.
Qed.

(** ** Interpolation *)

Lemma interpolation_error_not_KeyError (e : exn) :
  is_InterpolationError e = true -> is_KeyError e = false.
Proof. now destruct e. Qed.



(** Whatever interpolation raises is an interpolation error. *)
Lemma scan_raises (map : string -> option string) (name section : string)
    (deeper : string -> signal string) :
  (forall v e, deeper v = Raise e -> is_InterpolationError e = true) ->
  forall rest state e,
    scan map name section deeper state rest = Raise e ->
    is_InterpolationError e = true.
Proof.
  intros Hdeeper. unfold emit_then.
  induction rest as [|c rest IH]; intros state e; cbn [scan].
  - destruct state; unfold syntax_error; intros [= <-]; reflexivity || discriminate.
  - destruct state as [| |read|var].
    + destruct (Ascii.eqb c "%"); [apply IH|].
      unfold emit_then. destruct (scan _ _ _ _ Plain rest) eqn:E; [discriminate|].
      intros [= <-]. now apply (IH Plain).
    + destruct (Ascii.eqb c "%").
      * unfold emit_then. destruct (scan _ _ _ _ Plain rest) eqn:E; [discriminate|].
        intros [= <-]. now apply (IH Plain).
      * destruct (Ascii.eqb c "("); [apply IH|].
        unfold syntax_error. now intros [= <-].
    + destruct (Ascii.eqb c ")"); [|apply IH].
      destruct read; [unfold syntax_error; now intros [= <-] | apply IH].
    + destruct (Ascii.eqb c "s"); [|unfold syntax_error; now intros [= <-]].
      destruct (map (Str.lower var)) as [v|]; [|now intros [= <-]].
      destruct (Str.contains "%" v).
      * destruct (deeper v) eqn:Ev.
        -- unfold emit_then. destruct (scan _ _ _ _ Plain rest) eqn:E; [discriminate|].
           intros [= <-]. now apply (IH Plain).
        -- intros [= <-]. now apply (Hdeeper v).
      * unfold emit_then. destruct (scan _ _ _ _ Plain rest) eqn:E; [discriminate|].
        intros [= <-]. now apply (IH Plain).
Qed.

Lemma interpolate_some_raises (map : string -> option string) (name section : string)
    (levels : nat) :
  forall rest e,
    interpolate_some map name section levels rest = Raise e ->
    is_InterpolationError e = true.
Proof.
  induction levels as [|levels IH]; intros rest e; simpl.
  - now intros [= <-].
  - apply scan_raises. exact IH.
Qed.

Lemma before_get_raises (p : ConfigParser) (section key value : string) (e : exn) :
  before_get p section key value = Raise e -> is_InterpolationError e = true.
Proof. apply interpolate_some_raises. Qed.

(** ** Fetching a value *)

(** [config[section][key]], case by case. *)
Lemma lookup_cases (p : ConfigParser) (section key : string) :
  String.eqb section default_section = false ->
  lookup p section key =
  if has_section p section
  then if present p section key
       then parser_get p section key
       else Raise (KeyError key)
  else Raise (KeyError section).
Proof.
  intros Hd. unfold lookup, present. rewrite (section_getitem _ _ Hd).
  destruct (has_section p section); [|reflexivity].
  unfold proxy_getitem, proxy_contains; simpl.
  now destruct (has_option p section key).
Qed.

(** A key that is there has a stored value, and fetching it is
    interpolating that value. *)
Lemma lookup_present (p : ConfigParser) (section key : string) :
  String.eqb section default_section = false ->
  String.eqb section "" = false ->
  present p section key = true ->
  exists raw,
    get_value p section key = Some raw
    /\ lookup p section key = before_get p section key raw.
Proof.
  intros Hd He Hp.
  pose proof (present_needs_section _ _ _ Hd Hp) as Hs.
  rewrite (lookup_cases _ _ _ Hd), Hs, Hp.
  rewrite (present_in_section _ _ _ Hd Hs) in Hp.
  unfold proxy_contains, has_option in Hp; simpl in Hp. rewrite He, Hd in Hp; simpl in Hp.
  unfold parser_get. rewrite Hs; simpl.
  unfold has_section in Hs. unfold get_value.
  destruct (find_section (sections p) section) as [d|]; [|discriminate].
  unfold dict_mem in Hp.
  destruct (dict_get d key) as [v|]; [now exists v|].
  destruct (dict_get (defaults p) key) as [v|]; [now exists v | discriminate].
Qed.

(** Fetching a key that is there raises nothing but interpolation errors;
    no [except KeyError] stops them. *)
Lemma lookup_present_raises (p : ConfigParser) (section key : string) (e : exn) :
  String.eqb section default_section = false ->
  String.eqb section "" = false ->
  present p section key = true ->
  lookup p section key = Raise e ->
  is_InterpolationError e = true.
Proof.
  intros Hd He Hp Hl.
  destruct (lookup_present _ _ _ Hd He Hp) as (raw & _ & Heq).
  rewrite Heq in Hl. now apply before_get_raises in Hl.
Qed.


(** A key that is not there, in a section that is: [KeyError] under the
    key's name. *)
Lemma lookup_absent (p : ConfigParser) (section key : string) :
  String.eqb section default_section = false ->
  has_section p section = true ->
  present p section key = false ->
  lookup p section key = Raise (KeyError key).
Proof.
  intros Hd Hs Hp. now rewrite (lookup_cases _ _ _ Hd), Hs, Hp.
Qed.


(** What opening and reading raise is no [KeyError]. *)
Lemma read_text_raises (w : World) (path : string) (e : exn) :
  read_text w path = Raise e -> is_KeyError e = false.
Proof.
  unfold read_text. destruct (fs w path) as [| |[chars|]]; intros [= <-]; reflexivity.
Qed.


(** [open] then [read], as the actions do them one after the other. *)
Lemma open_read_bind {A} (w : World) (path : string) (k : string -> M A) (st : State) :
  bind (open_ w path) (fun handle => bind (file_read handle) k) st =
  match read_text w path with
  | Return text => k text st
  | Raise e => (st, Raise e)
  end.
Proof.
  unfold bind, open_, file_read, read_text, ret, raise.
  now destruct (fs w path) as [| |[chars|]].
Qed.

Lemma commands_app (l1 l2 : list event) :
  commands (l1 ++ l2) = commands l1 ++ commands l2.
Proof.
  induction l1 as [|[t|c] l1 IH]; simpl; [reflexivity | assumption | now rewrite IH].
Qed.

Lemma notices_app (l1 l2 : list event) :
  notices (l1 ++ l2) = notices l1 ++ notices l2.
Proof.
  induction l1 as [|[t|c] l1 IH]; simpl; [reflexivity | now rewrite IH | assumption].
Qed.

(** ** clone_dotfiles *)

(** Everything [clone_dotfiles] can do, by what [GENERAL] holds. *)
Lemma clone_dotfiles_run (w : World) (st : State) :
  clone_dotfiles w st =
  if present (config st) "GENERAL" "dotfiles_repo" then
    match lookup (config st) "GENERAL" "dotfiles_repo" with
    | Raise e => (st, Raise e)
    | Return repo =>
        if present (config st) "GENERAL" "dotfiles_dest" then
          match lookup (config st) "GENERAL" "dotfiles_dest" with
          | Raise e => (st, Raise e)
          | Return dest =>
              (after st (Spawned ("git clone " ++ repo ++ " " ++ dest)), Return tt)
          end
        else
          (after st (Spawned ("git clone " ++ repo ++ " $HOME/dotfiles")), Return tt)
    end
  else if present (config st) "GENERAL" "clone_dotfiles_cmd" then
    match lookup (config st) "GENERAL" "clone_dotfiles_cmd" with
    | Raise e => (st, Raise e)
    | Return cmd => (after st (Spawned cmd), Return tt)
    end
  else (after st (Printed no_repo_notice), Return tt).
Proof.
  assert (Hd : String.eqb "GENERAL" default_section = false) by reflexivity.
  assert (He : String.eqb "GENERAL" "" = false) by reflexivity.
  assert (Hout : forall key e,
             present (config st) "GENERAL" key = true ->
             lookup (config st) "GENERAL" key = Raise e ->
             is_KeyError e = false).
  { intros key e Hp Hl. apply interpolation_error_not_KeyError.
    now apply (lookup_present_raises _ _ _ _ Hd He Hp). }
  unfold clone_dotfiles, try_except, bind at 1.
  destruct (has_section (config st) "GENERAL") eqn:Hs.
  - rewrite (config_section_found _ _ Hd Hs).
    rewrite <- (present_in_section _ "dotfiles_repo" _ Hd Hs).
    destruct (present (config st) "GENERAL" "dotfiles_repo") eqn:Hrepo.
    + unfold bind at 1. rewrite (config_section_found _ _ Hd Hs).
      rewrite <- (present_in_section _ "dotfiles_dest" _ Hd Hs).
      destruct (present (config st) "GENERAL" "dotfiles_dest") eqn:Hdest.
      * unfold bind. rewrite !config_item_run.
        destruct (lookup (config st) "GENERAL" "dotfiles_repo") as [repo|e] eqn:Hl.
        -- cbv beta iota. rewrite ?config_item_run.
           destruct (lookup (config st) "GENERAL" "dotfiles_dest") as [dest|e] eqn:Hl'.
           ++ reflexivity.
           ++ now rewrite (Hout _ _ Hdest Hl').
        -- now rewrite (Hout _ _ Hrepo Hl).
      * unfold bind. rewrite !config_item_run.
        destruct (lookup (config st) "GENERAL" "dotfiles_repo") as [repo|e] eqn:Hl.
        -- reflexivity.
        -- now rewrite (Hout _ _ Hrepo Hl).
    + unfold bind. rewrite config_item_run.
      destruct (present (config st) "GENERAL" "clone_dotfiles_cmd") eqn:Hcmd.
      * destruct (lookup (config st) "GENERAL" "clone_dotfiles_cmd") as [cmd|e] eqn:Hl.
        -- reflexivity.
        -- now rewrite (Hout _ _ Hcmd Hl).
      * now rewrite (lookup_absent _ _ _ Hd Hs Hcmd).
  - rewrite (config_section_missing _ _ Hd Hs). simpl.
    now rewrite !(absent_without_section _ _ _ Hd Hs).
Qed.


(** C8. With neither [dotfiles_repo] nor [clone_dotfiles_cmd] to be had from
    [GENERAL], the section being there or not, [clone_dotfiles] spawns
    nothing, prints the one notice that no dotfile repo was specified, and
    returns. *)
Theorem clone_dotfiles_nothing_to_clone (w : World) (st : State) :
  present (config st) "GENERAL" "dotfiles_repo" = false ->
  present (config st) "GENERAL" "clone_dotfiles_cmd" = false ->
  clone_dotfiles w st = (after st (Printed no_repo_notice), Return tt)
  /\ commands (log (fst (clone_dotfiles w st))) = commands (log st)
  /\ notices (log (fst (clone_dotfiles w st))) = notices (log st) ++ [no_repo_notice].
Proof.
  intros Hrepo Hcmd. rewrite clone_dotfiles_run, Hrepo, Hcmd. simpl.
  split; [reflexivity|].
  rewrite commands_app, notices_app. simpl. now rewrite app_nil_r.
Qed.

(** ** run_scripts *)




(** Every name a section is iterated over is a key of the section. *)
Lemma options_present (p : ConfigParser) (section key : string) :
  String.eqb section default_section = false ->
  String.eqb section "" = false ->
  In key (options p section) ->
  present p section key = true.
Proof.
  intros Hd He Hin. unfold options in Hin.
  destruct (find_section (sections p) section) as [d|] eqn:Hs; [|contradiction].
  assert (Hsec : has_section p section = true) by (unfold has_section; now rewrite Hs).
  rewrite (present_in_section _ _ _ Hd Hsec).
  unfold proxy_contains, has_option; simpl. rewrite He, Hd, Hs; simpl.
  apply in_app_or in Hin as [Hin|Hin].
  - now rewrite (dict_mem_keys _ _ Hin).
  - apply filter_In in Hin as [Hin _]. rewrite (dict_mem_keys _ _ Hin). apply orb_true_r.
Qed.







(** C3, as the code has it. Without a [SCRIPTS] section [run_scripts] does
    not get to its loop: [config['SCRIPTS']] raises [KeyError], nothing is
    printed or spawned, and the error leaves the action. *)
Theorem run_scripts_without_section (w : World) (st : State) :
  has_section (config st) "SCRIPTS" = false ->
  run_scripts w st = (st, Raise (KeyError "SCRIPTS")).
Proof.
  intros Hs. unfold run_scripts, bind.
  now rewrite (config_section_missing "SCRIPTS") by (reflexivity || assumption).
Qed.

(** ** The install actions, case by case *)

Lemma replace_one_char (a b : ascii) (s : string) :
  Str.replace (String a EmptyString) (String b EmptyString) s = Str.subst_char a b s.
Proof.
  unfold Str.replace. induction s as [|c s IH]; simpl; [reflexivity|].
  rewrite andb_true_r, (Ascii.eqb_sym a c).
  destruct (Ascii.eqb c a); simpl; now rewrite IH.
Qed.




Lemma split_first (sep : ascii) (s : string) :
  exists field fields, Str.split sep s = field :: fields.
Proof.
  induction s as [|c s [f [fs' IH]]]; simpl; [eauto|].
  destruct (Ascii.eqb c sep); [eauto|]. rewrite IH; eauto.
Qed.

Lemma tool_of_getitem (list_ : string) :
  list_getitem (Str.split "_"%char list_) 0 = Return (tool_of list_).
Proof.
  unfold tool_of, list_getitem.
  destruct (split_first "_"%char list_) as [f [fs' ->]]. reflexivity.
Qed.

(** Everything [install_packages] can do. *)
Lemma install_packages_run (w : World) (st : State) :
  install_packages w st =
  if has_section (config st) "PACKAGES" then
    if present (config st) "PACKAGES" "pkg_install_cmd" then
      match lookup (config st) "PACKAGES" "pkg_list" with
      | Raise e => (st, Raise e)
      | Return path =>
          match read_text w path with
          | Raise e => (st, Raise e)
          | Return text =>
              match lookup (config st) "PACKAGES" "pkg_install_cmd" with
              | Raise e => (st, Raise e)
              | Return prefix =>
                  (after st (Spawned (prefix ++ " " ++ collapse_newlines text)),
                   Return tt)
              end
          end
      end
    else (st, Return tt)
  else (st, Raise (KeyError "PACKAGES")).
Proof.
  assert (Hd : String.eqb "PACKAGES" default_section = false) by reflexivity.
  unfold install_packages, bind at 1.
  destruct (has_section (config st) "PACKAGES") eqn:Hs.
  - rewrite (config_section_found _ _ Hd Hs).
    rewrite <- (present_in_section _ "pkg_install_cmd" _ Hd Hs).
    destruct (present (config st) "PACKAGES" "pkg_install_cmd"); [|reflexivity].
    unfold bind at 1. rewrite config_item_run.
    destruct (lookup (config st) "PACKAGES" "pkg_list") as [path|e]; [|reflexivity].
    rewrite open_read_bind.
    destruct (read_text w path) as [text|e]; [|reflexivity].
    cbv zeta. unfold bind. rewrite config_item_run.
    now destruct (lookup (config st) "PACKAGES" "pkg_install_cmd").
  - now rewrite (config_section_missing _ _ Hd Hs).
Qed.

(** Everything one turn of the loop of [install_from_list] can do. *)
Lemma install_list_run (w : World) (list_ : string) (st : State) :
  install_list w list_ st =
  if Str.contains "_list" list_ then
    match lookup (config st) "PACKAGES" list_ with
    | Raise e => if is_KeyError e then (st, Return tt) else (st, Raise e)
    | Return path =>
        match read_text w path with
        | Raise e => (st, Raise e)
        | Return text =>
            match dict_get install_cmd (tool_of list_) with
            | Some subcommand =>
                (after st
                   (Spawned
                      (tool_of list_ ++ " " ++ subcommand ++ " " ++ collapse_newlines text)),
                 Return tt)
            | None => (st, Return tt)
            end
        end
    end
  else (st, Return tt).
Proof.
  unfold install_list. destruct (Str.contains "_list" list_); [|reflexivity].
  unfold bind at 1, lift at 1. rewrite tool_of_getitem.
  unfold try_except, bind at 1. rewrite config_item_run.
  destruct (lookup (config st) "PACKAGES" list_) as [path|e]; [|reflexivity].
  rewrite open_read_bind.
  destruct (read_text w path) as [text|e] eqn:Hread.
  - cbv zeta. unfold bind, lift, dict_getitem.
    now destruct (dict_get install_cmd (tool_of list_)).
  - now rewrite (read_text_raises _ _ _ Hread).
Qed.

Lemma install_from_list_run (w : World) (st : State) :
  install_from_list w st =
  if has_section (config st) "PACKAGES"
  then for_each (options (config st) "PACKAGES") (install_list w) st
  else (st, Raise (KeyError "PACKAGES")).
Proof.
  assert (Hd : String.eqb "PACKAGES" default_section = false) by reflexivity.
  unfold install_from_list, bind.
  destruct (has_section (config st) "PACKAGES") eqn:Hs.
  - now rewrite (config_section_found _ _ Hd Hs).
  - now rewrite (config_section_missing _ _ Hd Hs).
Qed.

Lemma options_section (p : ConfigParser) (section : string) (k : string) (l : list string) :
  options p section = k :: l -> has_section p section = true.
Proof.
  unfold options, has_section.
  destruct (find_section (sections p) section); [reflexivity | discriminate].
Qed.


(** ** The collapsing of newlines *)


(** ** install_packages *)


(** ** install_from_list *)

Lemma install_list_config (w : World) (list_ : string) (st : State) :
  config (fst (install_list w list_ st)) = config st.
Proof.
  rewrite install_list_run.
  destruct (Str.contains "_list" list_); [|reflexivity].
  destruct (lookup (config st) "PACKAGES" list_) as [path|e];
    [|now destruct (is_KeyError e)].
  destruct (read_text w path); [|reflexivity].
  now destruct (dict_get install_cmd (tool_of list_)).
Qed.

Lemma install_loop_config (w : World) (l : list string) :
  forall st, config (fst (for_each l (install_list w) st)) = config st.
Proof.
  induction l as [|k l IH]; intro st; simpl; [reflexivity|].
  unfold bind. pose proof (install_list_config w k st) as H.
  destruct (install_list w k st) as [st1 [[]|e]]; simpl in *.
  - now rewrite IH.
  - exact H.
Qed.

(** C2, as the code has it. For an option of [PACKAGES] with [_list] in its
    name, reached after the options before it had their turn: when the
    file it points to cannot be read, missing, unreadable or undecodable,
    [install_from_list] spawns nothing for the option and stops there with
    the file's error, so that what the options before it did stands and
    the options after it get no turn; the same when the option's value
    cannot be fetched.  The one error the loop passes over is the
    [KeyError] of a tool that is not in the table: the file having been
    read, nothing is spawned for the option and the loop goes on with the
    options after it. *)
Theorem install_from_list_stops_at_unreadable_list
    (w : World) (st st1 : State) (before rest : list string) (key : string) :
  options (config st) "PACKAGES" = before ++ key :: rest ->
  Str.contains "_list" key = true ->
  for_each before (install_list w) st = (st1, Return tt) ->
  (forall path e,
     lookup (config st) "PACKAGES" key = Return path ->
     read_text w path = Raise e ->
     install_from_list w st = (st1, Raise e))
  /\ (forall e,
        lookup (config st) "PACKAGES" key = Raise e ->
        is_InterpolationError e = true
        /\ install_from_list w st = (st1, Raise e))
  /\ (forall path text,
        lookup (config st) "PACKAGES" key = Return path ->
        read_text w path = Return text ->
        dict_get install_cmd (tool_of key) = None ->
        install_from_list w st = for_each rest (install_list w) st1).
Proof.
  assert (Hd : String.eqb "PACKAGES" default_section = false) by reflexivity.
  assert (He : String.eqb "PACKAGES" "" = false) by reflexivity.
  intros Hopts Hlist Hbefore.
  rewrite install_from_list_run.
  assert (Hs : has_section (config st) "PACKAGES" = true).
  { destruct before; simpl in Hopts; eapply options_section; eassumption. }
  rewrite Hs, Hopts, for_each_app, Hbefore. cbn [for_each]. unfold bind.
  assert (Hcfg : config st1 = config st).
  { pose proof (install_loop_config w before st) as H. now rewrite Hbefore in H. }
  rewrite install_list_run, Hlist, Hcfg.
  split; [|split].
  - intros path e Hl Hr. now rewrite Hl, Hr.
  - intros e Hl.
    assert (Hi : is_InterpolationError e = true).
    { apply (lookup_present_raises (config st) "PACKAGES" key e Hd He); [|exact Hl].
      apply (options_present _ _ _ Hd He). rewrite Hopts.
      apply in_or_app. right. now left. }
    split; [exact Hi|].
    now rewrite Hl, (interpolation_error_not_KeyError _ Hi).
  - intros path text Hl Hr Htool. now rewrite Hl, Hr, Htool.
Qed.

(** C7, as the code has it. With [pip_list=a.txt] and [foo_list=b.txt] the
    options of [PACKAGES] and ["x\ny\n"] in [a.txt], [install_from_list]
    spawns one command, [pip install --user x y ] with the space the last
    newline leaves, and none for [foo_list]; it returns when [b.txt] can be
    read, [foo] not being in the table, and lets the file's error through
    when [b.txt] cannot be opened or decoded. *)
Theorem install_from_list_pip_and_foo (w : World) (st : State) :
  options (config st) "PACKAGES" = ["pip_list"; "foo_list"] ->
  lookup (config st) "PACKAGES" "pip_list" = Return "a.txt" ->
  lookup (config st) "PACKAGES" "foo_list" = Return "b.txt" ->
  fs w "a.txt" = Text (Decoded x_y) ->
  install_from_list w st =
  (after st (Spawned "pip install --user x y "),
   match read_text w "b.txt" with
   | Return _ => Return tt
   | Raise e => Raise e
   end).
Proof.
  intros Hopts Hpip Hfoo Ha.
  rewrite install_from_list_run, (options_section _ _ _ _ Hopts), Hopts.
  simpl. unfold bind.
  rewrite install_list_run, Hpip. unfold read_text at 1. rewrite Ha. simpl.
  rewrite install_list_run. simpl. rewrite Hfoo.
  now destruct (read_text w "b.txt").
Qed.

(** C10. Without a [PACKAGES] section both install actions raise [KeyError]
    at [config['PACKAGES']], before anything is read or spawned. *)
Theorem install_actions_without_section (w : World) (st : State) :
  has_section (config st) "PACKAGES" = false ->
  install_packages w st = (st, Raise (KeyError "PACKAGES"))
  /\ install_from_list w st = (st, Raise (KeyError "PACKAGES")).
Proof.
  intros Hs. now rewrite install_packages_run, install_from_list_run, Hs.
Qed.

(** ** The loading of the configuration *)

(** Whatever the files hold, loading prints nothing: the only handler that
    prints waits for a [KeyError], and what reaches it is the
    [AttributeError] of [Path.expanduser]. *)
Lemma import_module_prints_nothing (w : World) :
  log (fst (import_module w)) = [].
Proof.
  unfold import_module, load_config, try_except, parser_read, fresh; simpl.
  destruct (fs w "./tuckr.conf") as [| |body]; try reflexivity.
  destruct (ini_read w body new_parser) as [p [e|]]; [|reflexivity].
  destruct (is_OSError e); reflexivity.
Qed.

(** A file at [./tuckr.conf] the reader rejects ends the import with the
    [AttributeError] of the fallback. *)
Lemma import_module_malformed (w : World) (body : contents) (p : ConfigParser) (e : exn) :
  fs w "./tuckr.conf" = Text body ->
  ini_read w body new_parser = (p, Some e) ->
  is_OSError e = false ->
  import_module w = ({| config := p; log := [] |}, Raise (AttributeError "str")).
Proof.
  intros Hf Hr He.
  unfold import_module, load_config, try_except, parser_read, fresh; simpl.
  now rewrite Hf, Hr, He.
Qed.

(** C4, where the code departs from it. With no file at either place the
    import returns and leaves an empty parser, but prints no notice; and no
    world makes it print one. *)
Theorem import_module_without_files :
  import_module (world_of [] 0) = (fresh, Return tt)
  /\ notices (log (fst (import_module (world_of [] 0)))) = []
  /\ forall w : World, notices (log (fst (import_module w))) = [].
Proof.
  split; [reflexivity|]. split; [reflexivity|].
  intro w. now rewrite import_module_prints_nothing.
Qed.


(** * The actions on the example configurations *)

(** ** clone_dotfiles *)



Lemma clone_dotfiles_nothing_to_clone_witness :
  clone_dotfiles (world_of [] 0) fresh = (after fresh (Printed no_repo_notice), Return tt)
  /\ commands (log (fst (clone_dotfiles (world_of [] 0) fresh))) = []
  /\ notices (log (fst (clone_dotfiles (world_of [] 0) fresh))) = [no_repo_notice].
Proof.
  exact (clone_dotfiles_nothing_to_clone (world_of [] 0) fresh eq_refl eq_refl).
Defined.

(** ** run_scripts *)





(** With no section at all, [SCRIPTS] among them, the runner raises. *)
Lemma run_scripts_raises_without_section :
  has_section (config fresh) "SCRIPTS" = false
  /\ run_scripts (world_of [] 0) fresh = (fresh, Raise (KeyError "SCRIPTS")).
Proof. split; reflexivity. Qed.

Lemma run_scripts_without_section_witness :
  run_scripts (world_of [] 0) (started repo_only) =
  (started repo_only, Raise (KeyError "SCRIPTS")).
Proof.
  exact (run_scripts_without_section (world_of [] 0) (started repo_only) eq_refl).
Defined.

(** ** The install actions *)




(** [a.txt] is missing and [b.txt] is there: the action ends at [pip_list]
    with the file error, and [npm_list], which would have had its command,
    gets no turn. *)
Lemma install_from_list_aborts_on_missing_list :
  Str.contains "_list" "pip_list" = true
  /\ value_of pip_and_npm "PACKAGES" "pip_list" = Some "a.txt"
  /\ read_error (world_of [("b.txt", "left-pad")] 0) "a.txt" =
     Some (FileNotFoundError "a.txt")
  /\ install_from_list (world_of [("b.txt", "left-pad")] 0) (started pip_and_npm) =
     (started pip_and_npm, Raise (FileNotFoundError "a.txt"))
  /\ install_list (world_of [("b.txt", "left-pad")] 0) "npm_list" (started pip_and_npm) =
     (after (started pip_and_npm) (Spawned "npm install -g left-pad"), Return tt).
Proof. repeat split; reflexivity. Qed.

Lemma install_from_list_stops_at_unreadable_list_witness :
  install_from_list (world_of [("a.txt", x_y)] 0) (started pip_and_npm) =
  (after (started pip_and_npm) (Spawned "pip install --user x y "),
   Raise (FileNotFoundError "b.txt"))
  /\ install_from_list (world_garbled "b.txt" [("a.txt", x_y)] 0) (started pip_and_npm) =
     (after (started pip_and_npm) (Spawned "pip install --user x y "),
      Raise UnicodeDecodeError)
  /\ install_from_list (world_of [("a.txt", x_y); ("b.txt", "z")] 0) (started pip_and_foo) =
     (after (started pip_and_foo) (Spawned "pip install --user x y "), Return tt).
Proof.
  split; [|split].
  - exact (proj1 (install_from_list_stops_at_unreadable_list
             (world_of [("a.txt", x_y)] 0) (started pip_and_npm)
             (after (started pip_and_npm) (Spawned "pip install --user x y "))
             ["pip_list"] [] "npm_list" eq_refl eq_refl eq_refl)
             "b.txt" (FileNotFoundError "b.txt") eq_refl eq_refl).
  - exact (proj1 (install_from_list_stops_at_unreadable_list
             (world_garbled "b.txt" [("a.txt", x_y)] 0) (started pip_and_npm)
             (after (started pip_and_npm) (Spawned "pip install --user x y "))
             ["pip_list"] [] "npm_list" eq_refl eq_refl eq_refl)
             "b.txt" UnicodeDecodeError eq_refl eq_refl).
  - exact (proj2 (proj2 (install_from_list_stops_at_unreadable_list
             (world_of [("a.txt", x_y); ("b.txt", "z")] 0) (started pip_and_foo)
             (after (started pip_and_foo) (Spawned "pip install --user x y "))
             ["pip_list"] [] "foo_list" eq_refl eq_refl eq_refl))
             "b.txt" "z" eq_refl eq_refl eq_refl).
Defined.

(** The command for [pip_list] ends in a space; and with [b.txt] missing
    [foo_list] is not passed over in silence. *)
Lemma install_from_list_pip_command_ends_in_space :
  install_from_list (world_of [("a.txt", x_y); ("b.txt", "z")] 0) (started pip_and_foo) =
  (after (started pip_and_foo) (Spawned "pip install --user x y "), Return tt)
  /\ commands
       (log (fst (install_from_list (world_of [("a.txt", x_y); ("b.txt", "z")] 0)
                    (started pip_and_foo))))
     <> ["pip install --user x y"]
  /\ install_from_list (world_of [("a.txt", x_y)] 0) (started pip_and_foo) =
     (after (started pip_and_foo) (Spawned "pip install --user x y "),
      Raise (FileNotFoundError "b.txt")).
Proof.
  split; [reflexivity|]. split; [|reflexivity].
  simpl. intro H. discriminate H.
Qed.

Lemma install_from_list_pip_and_foo_witness :
  install_from_list (world_of [("a.txt", x_y); ("b.txt", "z")] 1) (started pip_and_foo) =
  (after (started pip_and_foo) (Spawned "pip install --user x y "), Return tt).
Proof.
  exact (install_from_list_pip_and_foo
           (world_of [("a.txt", x_y); ("b.txt", "z")] 1) (started pip_and_foo)
           eq_refl eq_refl eq_refl eq_refl).
Defined.

Lemma install_actions_without_section_witness :
  install_packages (world_of [] 0) (started two_scripts) =
  (started two_scripts, Raise (KeyError "PACKAGES"))
  /\ install_from_list (world_of [] 0) (started two_scripts) =
     (started two_scripts, Raise (KeyError "PACKAGES")).
Proof.
  exact (install_actions_without_section (world_of [] 0) (started two_scripts) eq_refl).
Defined.
(** * Further properties of the module *)

(** ** The loading of the configuration *)

(** X1. What the import leaves is decided by [./tuckr.conf] alone: nothing else
    of the file system is looked at, [~/.config/tuckr.conf] included. *)
Theorem import_module_reads_one_place (w1 w2 : World) :
  fs w1 "./tuckr.conf" = fs w2 "./tuckr.conf" ->
  (forall body, ini_read w1 body new_parser = ini_read w2 body new_parser) ->
  import_module w1 = import_module w2.
Proof.
  intros Hfs Hread.
  unfold import_module, load_config, try_except, parser_read, fresh; simpl.
  rewrite Hfs. destruct (fs w2 "./tuckr.conf") as [| |body]; try reflexivity.
  now rewrite Hread.
Qed.

Lemma import_module_reads_one_place_witness :
  import_module (world_of [] 0) =
  import_module (world_of [("~/.config/tuckr.conf", "[GENERAL]")] 0).
Proof.
  exact (import_module_reads_one_place
           (world_of [] 0) (world_of [("~/.config/tuckr.conf", "[GENERAL]")] 0)
           eq_refl (fun _ => eq_refl)).
Defined.

(** X2. The import fails exactly when there is a file at [./tuckr.conf] and the
    reader rejects it with something that is not an [OSError]; what leaves
    the import then is never the reader's exception but the
    [AttributeError] of the fallback. *)
Theorem import_module_raises_iff (w : World) :
  ((exists e, snd (import_module w) = Raise e) <->
   (exists body p e0,
      fs w "./tuckr.conf" = Text body
      /\ ini_read w body new_parser = (p, Some e0)
      /\ is_OSError e0 = false))
  /\ (forall e, snd (import_module w) = Raise e -> e = AttributeError "str").
Proof.
  unfold import_module, load_config, try_except, parser_read, fresh; simpl.
  destruct (fs w "./tuckr.conf") as [| |body] eqn:Hfs; simpl.
  - split; [split|]; [intros [e H]; discriminate H | | intros e H; discriminate H].
    intros (body & p & e0 & H & _); discriminate H.
  - split; [split|]; [intros [e H]; discriminate H | | intros e H; discriminate H].
    intros (body & p & e0 & H & _); discriminate H.
  - destruct (ini_read w body new_parser) as [p [e0|]] eqn:Hread.
    + destruct (is_OSError e0) eqn:Hos; simpl.
      * split; [split|]; [intros [e H]; discriminate H | | intros e H; discriminate H].
        intros (body' & p' & e' & Hb & Hr & He).
        injection Hb as <-. rewrite Hread in Hr. injection Hr as <- <-. congruence.
      * split; [split|].
        -- intros _. exists body, p, e0. auto.
        -- intros _. eauto.
        -- intros e H. now injection H as <-.
    + simpl. split; [split|]; [intros [e H]; discriminate H | | intros e H; discriminate H].
      intros (body' & p' & e' & Hb & Hr & He).
      injection Hb as <-. rewrite Hread in Hr. discriminate Hr.
Qed.

(** X3. A file at [./tuckr.conf] that the reader accepts, or gives up on with an
    [OSError], becomes the configuration: the import returns with the parser
    as the reader left it and prints nothing. *)
Theorem import_module_takes_the_file
    (w : World) (body : contents) (p : ConfigParser) (problem : option exn) :
  fs w "./tuckr.conf" = Text body ->
  ini_read w body new_parser = (p, problem) ->
  (forall e, problem = Some e -> is_OSError e = true) ->
  import_module w = (started p, Return tt).
Proof.
  intros Hfs Hread Hos.
  unfold import_module, load_config, try_except, parser_read, fresh; simpl.
  rewrite Hfs, Hread. destruct problem as [e|]; [|reflexivity].
  now rewrite (Hos e eq_refl).
Qed.

Lemma import_module_takes_the_file_witness :
  import_module (world_with_conf repo_only None) = (started repo_only, Return tt).
Proof.
  refine (import_module_takes_the_file
            (world_with_conf repo_only None) (Decoded "[GENERAL]") repo_only None
            eq_refl eq_refl _).
  intros e H. discriminate H.
Defined.

(** X4. After an import that found nothing to open at [./tuckr.conf], the
    clone action prints its notice and returns, and the other three actions
    raise [KeyError] for their section. *)
Theorem actions_after_import_without_file (w : World) (e : exn) :
  read_error w "./tuckr.conf" = Some e ->
  import_module w = (fresh, Return tt)
  /\ clone_dotfiles w (fst (import_module w)) =
     (after fresh (Printed no_repo_notice), Return tt)
  /\ install_packages w (fst (import_module w)) = (fresh, Raise (KeyError "PACKAGES"))
  /\ run_scripts w (fst (import_module w)) = (fresh, Raise (KeyError "SCRIPTS"))
  /\ install_from_list w (fst (import_module w)) = (fresh, Raise (KeyError "PACKAGES")).
Proof.
  intros Herr.
  assert (Himp : import_module w = (fresh, Return tt)).
  { unfold read_error in Herr.
    unfold import_module, load_config, try_except, parser_read, fresh; simpl.
    destruct (fs w "./tuckr.conf"); [reflexivity | reflexivity | discriminate Herr]. }
  rewrite Himp. simpl. repeat split; reflexivity.
Qed.

Lemma actions_after_import_without_file_witness :
  import_module (world_of [] 0) = (fresh, Return tt)
  /\ clone_dotfiles (world_of [] 0) (fst (import_module (world_of [] 0))) =
     (after fresh (Printed no_repo_notice), Return tt)
  /\ install_packages (world_of [] 0) (fst (import_module (world_of [] 0))) =
     (fresh, Raise (KeyError "PACKAGES"))
  /\ run_scripts (world_of [] 0) (fst (import_module (world_of [] 0))) =
     (fresh, Raise (KeyError "SCRIPTS"))
  /\ install_from_list (world_of [] 0) (fst (import_module (world_of [] 0))) =
     (fresh, Raise (KeyError "PACKAGES")).
Proof.
  exact (actions_after_import_without_file
           (world_of [] 0) (FileNotFoundError "./tuckr.conf") eq_refl).
Defined.


(** ** What all four actions have in common *)

Lemma for_each_config {A} (body : A -> M unit) (l : list A) :
  (forall x st, config (fst (body x st)) = config st) ->
  forall st, config (fst (for_each l body st)) = config st.
Proof.
  intros Hbody. induction l as [|x l IH]; intro st; simpl; [reflexivity|].
  unfold bind. pose proof (Hbody x st) as H.
  destruct (body x st) as [st1 [[]|e]]; simpl in *.
  - now rewrite IH.
  - exact H.
Qed.

Lemma for_each_ext {A} (f g : A -> M unit) (l : list A) :
  (forall x st, f x st = g x st) ->
  forall st, for_each l f st = for_each l g st.
Proof.
  intros Hfg. induction l as [|x l IH]; intro st; simpl; [reflexivity|].
  unfold bind. rewrite Hfg. destruct (g x st) as [st1 [[]|e]]; [apply IH | reflexivity].
Qed.

Lemma run_script_config (w : World) (script : string) (st : State) :
  config (fst (run_script w script st)) = config st.
Proof.
  unfold run_script, bind, print, emit. rewrite config_item_run. cbn [config].
  now destruct (lookup (config st) "SCRIPTS" script).
Qed.

Lemma run_script_any_world (w1 w2 : World) (script : string) (st : State) :
  run_script w1 script st = run_script w2 script st.
Proof.
  unfold run_script, bind, print, emit. rewrite !config_item_run. cbn [config].
  now destruct (lookup (config st) "SCRIPTS" script).
Qed.

Lemma install_list_same_files (w1 w2 : World) (list_ : string) (st : State) :
  same_files w1 w2 -> install_list w1 list_ st = install_list w2 list_ st.
Proof.
  intros Hfs. rewrite !install_list_run. unfold read_text.
  destruct (Str.contains "_list" list_); [|reflexivity].
  destruct (lookup (config st) "PACKAGES" list_) as [path|e]; [|reflexivity].
  now rewrite (Hfs path).
Qed.


(** X6. No action writes to [config]: returning or raising, each leaves the
    parser it found. *)
Theorem actions_keep_config (w : World) (st : State) :
  config (fst (clone_dotfiles w st)) = config st
  /\ config (fst (install_packages w st)) = config st
  /\ config (fst (run_scripts w st)) = config st
  /\ config (fst (install_from_list w st)) = config st.
Proof.
  split; [|split; [|split]].
  - rewrite clone_dotfiles_run.
    destruct (present (config st) "GENERAL" "dotfiles_repo").
    + destruct (lookup (config st) "GENERAL" "dotfiles_repo"); [|reflexivity].
      destruct (present (config st) "GENERAL" "dotfiles_dest"); [|reflexivity].
      now destruct (lookup (config st) "GENERAL" "dotfiles_dest").
    + destruct (present (config st) "GENERAL" "clone_dotfiles_cmd"); [|reflexivity].
      now destruct (lookup (config st) "GENERAL" "clone_dotfiles_cmd").
  - rewrite install_packages_run.
    destruct (has_section (config st) "PACKAGES"); [|reflexivity].
    destruct (present (config st) "PACKAGES" "pkg_install_cmd"); [|reflexivity].
    destruct (lookup (config st) "PACKAGES" "pkg_list") as [path|]; [|reflexivity].
    destruct (read_text w path); [|reflexivity].
    now destruct (lookup (config st) "PACKAGES" "pkg_install_cmd").
  - unfold run_scripts, bind. rewrite config_section_run.
    destruct (parser_getitem (config st) "SCRIPTS") as [s|e]; [|reflexivity].
    apply for_each_config. apply run_script_config.
  - rewrite install_from_list_run.
    destruct (has_section (config st) "PACKAGES"); [|reflexivity].
    apply install_loop_config.
Qed.

(** X7. The status a spawned command ends with plays no part: in two worlds
    with the same files, whatever their commands return, each action does
    the same and ends the same. *)
Theorem actions_ignore_exit_status (w1 w2 : World) (st : State) :
  same_files w1 w2 ->
  clone_dotfiles w1 st = clone_dotfiles w2 st
  /\ install_packages w1 st = install_packages w2 st
  /\ run_scripts w1 st = run_scripts w2 st
  /\ install_from_list w1 st = install_from_list w2 st.
Proof.
  intros Hfs. split; [|split; [|split]].
  - now rewrite !clone_dotfiles_run.
  - rewrite !install_packages_run. unfold read_text.
    destruct (has_section (config st) "PACKAGES"); [|reflexivity].
    destruct (present (config st) "PACKAGES" "pkg_install_cmd"); [|reflexivity].
    destruct (lookup (config st) "PACKAGES" "pkg_list") as [path|]; [|reflexivity].
    now rewrite (Hfs path).
  - unfold run_scripts, bind. rewrite config_section_run.
    destruct (parser_getitem (config st) "SCRIPTS") as [s|e]; [|reflexivity].
    apply for_each_ext. intros; apply run_script_any_world.
  - rewrite !install_from_list_run.
    destruct (has_section (config st) "PACKAGES"); [|reflexivity].
    apply for_each_ext. intros; now apply install_list_same_files.
Qed.

Lemma actions_ignore_exit_status_witness :
  clone_dotfiles (world_of [] 0) (started two_scripts) =
  clone_dotfiles (world_of [] 1) (started two_scripts)
  /\ install_packages (world_of [] 0) (started two_scripts) =
     install_packages (world_of [] 1) (started two_scripts)
  /\ run_scripts (world_of [] 0) (started two_scripts) =
     run_scripts (world_of [] 1) (started two_scripts)
  /\ install_from_list (world_of [] 0) (started two_scripts) =
     install_from_list (world_of [] 1) (started two_scripts).
Proof.
  exact (actions_ignore_exit_status (world_of [] 0) (world_of [] 1)
           (started two_scripts) (fun _ => eq_refl)).
Defined.

(** ** install_packages *)



(** ** run_scripts, further *)

Lemma dict_get_In (d : dict) (k v : string) :
  dict_get d k = Some v -> In (k, v) d.
Proof.
  induction d as [|[k' v'] d IH]; simpl; [discriminate|].
  destruct (String.eqb k' k) eqn:E.
  - apply String.eqb_eq in E. intros [= ->]. left. now subst.
  - intros H. right. now apply IH.
Qed.




(** ** Names of options and the tools read off them *)

Lemma tool_of_cons (c : ascii) (s : string) :
  tool_of (String c s) =
  if Ascii.eqb c "_" then EmptyString else String c (tool_of s).
Proof.
  unfold tool_of; simpl. destruct (Ascii.eqb c "_"); [reflexivity|].
  now destruct (split_first "_" s) as [f [fs' ->]].
Qed.

Lemma underscore_free_cons (c : ascii) (s : string) :
  Str.contains "_" (String c s) = false ->
  Ascii.eqb c "_" = false /\ Str.contains "_" s = false.
Proof.
  change "_"%string with (String "_"%char EmptyString).
  rewrite contains_char_cons, (Ascii.eqb_sym "_" c).
  intros H. now apply orb_false_iff in H.
Qed.

Lemma tool_of_field (tool rest : string) :
  Str.contains "_" tool = false ->
  tool_of (tool ++ "_" ++ rest) = tool.
Proof.
  induction tool as [|c tool IH]; intros H.
  - reflexivity.
  - apply underscore_free_cons in H as [Hc Ht].
    change ((String c tool ++ "_" ++ rest)%string)
      with (String c (tool ++ "_" ++ rest)).
    now rewrite tool_of_cons, Hc, IH.
Qed.

Lemma tool_of_prefix (key : string) :
  exists rest,
    key = (tool_of key ++ rest)%string
    /\ (rest = EmptyString \/ Str.startswith "_" rest = true).
Proof.
  induction key as [|c key (rest & Hk & Hr)].
  - exists EmptyString. split; [reflexivity | now left].
  - rewrite tool_of_cons. destruct (Ascii.eqb c "_") eqn:Hc.
    + apply Ascii.eqb_eq in Hc; subst c. exists (String "_" key).
      split; [reflexivity | now right].
    + exists rest. split; [|exact Hr]. simpl. now rewrite <- Hk.
Qed.

Lemma tool_of_underscore_free (key : string) :
  Str.contains "_" (tool_of key) = false.
Proof.
  induction key as [|c key IH]; [reflexivity|].
  rewrite tool_of_cons. destruct (Ascii.eqb c "_") eqn:Hc; [reflexivity|].
  change "_"%string with (String "_"%char EmptyString) in *.
  now rewrite contains_char_cons, (Ascii.eqb_sym "_" c), Hc, IH.
Qed.

(** X10. The test [sub in s] of the embedding holds exactly when [s] is some
    text, then [sub], then some text.  So the filter of [install_from_list]
    lets through every name with [_list] anywhere in it, at the end or
    not. *)
Theorem contains_iff_infix (sub s : string) :
  Str.contains sub s = true <->
  exists pre post, s = (pre ++ sub ++ post)%string.
Proof.
  split.
  - induction s as [|c s IH]; rewrite contains_unfold; intros H;
      apply orb_true_iff in H as [H|H].
    + apply startswith_iff in H as [post ->]. now exists EmptyString, post.
    + discriminate H.
    + apply startswith_iff in H as [post ->]. now exists EmptyString, post.
    + destruct (IH H) as (pre & post & ->). now exists (String c pre), post.
  - intros (pre & post & ->). induction pre as [|c pre IH].
    + rewrite contains_unfold. apply orb_true_iff. left.
      apply startswith_iff. now exists post.
    + change ((String c pre ++ sub ++ post)%string)
        with (String c (pre ++ sub ++ post)).
      rewrite contains_unfold, IH. apply orb_true_r.
Qed.

(** X11. The tool [install_from_list] reads off a name is the name up to its
    first underscore: it begins the name, what follows it is nothing or
    begins with an underscore, and it has no underscore itself.  A name
    made of an underscore-free tool, an underscore and anything gives the
    tool back. *)
Theorem tool_of_first_field :
  (forall key,
     (exists rest,
        key = (tool_of key ++ rest)%string
        /\ (rest = EmptyString \/ Str.startswith "_" rest = true))
     /\ Str.contains "_" (tool_of key) = false)
  /\ (forall tool rest,
        Str.contains "_" tool = false ->
        tool_of (tool ++ "_" ++ rest) = tool).
Proof.
  split.
  - intro key. split; [apply tool_of_prefix | apply tool_of_underscore_free].
  - apply tool_of_field.
Qed.

Lemma tool_of_first_field_witness :
  tool_of "yarn_list" = "yarn".
Proof.
  exact (proj2 tool_of_first_field "yarn" "list" eq_refl).
Defined.

(** ** The collapsing of newlines, further *)

Lemma replace_absent (old new s : string) :
  Str.contains old s = false -> Str.replace old new s = s.
Proof.
  unfold Str.replace. induction s as [|c s IH]; [reflexivity|].
  rewrite contains_unfold. intros H. apply orb_false_iff in H as [Hp Hc].
  cbn [Str.replace_from]. rewrite Hp. now rewrite (IH Hc).
Qed.

Lemma subst_char_app (a b : ascii) (s t : string) :
  Str.subst_char a b (s ++ t) = (Str.subst_char a b s ++ Str.subst_char a b t)%string.
Proof. induction s as [|c s IH]; simpl; [reflexivity | now rewrite IH]. Qed.

Lemma subst_char_gone (a b : ascii) (s : string) :
  Ascii.eqb a b = false ->
  Str.contains (String a EmptyString) (Str.subst_char a b s) = false.
Proof.
  intros Hab. induction s as [|c s IH]; [reflexivity|].
  cbn [Str.subst_char]. rewrite contains_char_cons, IH, orb_false_r.
  destruct (Ascii.eqb c a) eqn:Hc; [exact Hab | now rewrite Ascii.eqb_sym].
Qed.

(** X12. The collapsed text is one line: no newline is left in it.  Collapsing
    it again changes nothing, a text without newline is its own collapse,
    and the collapse of two texts put together is their collapses put
    together. *)
Theorem collapse_newlines_one_line (text : string) :
  Str.contains Str.nl (collapse_newlines text) = false
  /\ collapse_newlines (collapse_newlines text) = collapse_newlines text
  /\ (Str.contains Str.nl text = false -> collapse_newlines text = text)
  /\ (forall more,
        collapse_newlines (text ++ more) =
        (collapse_newlines text ++ collapse_newlines more)%string).
Proof.
  assert (Hgone : Str.contains Str.nl (collapse_newlines text) = false).
  { unfold collapse_newlines, Str.nl.
    change " "%string with (String " "%char EmptyString).
    rewrite replace_one_char. now apply subst_char_gone. }
  split; [exact Hgone|]. split; [|split].
  - unfold collapse_newlines at 1. now apply replace_absent.
  - intros H. unfold collapse_newlines. now apply replace_absent.
  - intro more. unfold collapse_newlines, Str.nl.
    change " "%string with (String " "%char EmptyString).
    rewrite !replace_one_char. apply subst_char_app.
Qed.

Lemma collapse_newlines_one_line_witness :
  collapse_newlines "vim git" = "vim git".
Proof.
  exact (proj1 (proj2 (proj2 (collapse_newlines_one_line "vim git"))) eq_refl).
Defined.

(** ** install_from_list, further *)

(** What one turn of the loop can leave behind: nothing printed, and at
    most one command, of a tool of the table. *)
Lemma install_list_shape (w : World) (list_ : string) (st : State) :
  exists evs r,
    install_list w list_ st = (after_all st evs, r)
    /\ Forall known_command (commands evs)
    /\ notices evs = [].
Proof.
  rewrite install_list_run.
  assert (Hnone : forall r : signal unit,
             exists evs r',
               (st, r) = (after_all st evs, r')
               /\ Forall known_command (commands evs) /\ notices evs = []).
  { intro r. exists [], r. rewrite after_all_nil. repeat split. constructor. }
  destruct (Str.contains "_list" list_); [|apply Hnone].
  destruct (lookup (config st) "PACKAGES" list_) as [path|e];
    [|destruct (is_KeyError e); apply Hnone].
  destruct (read_text w path) as [text|e]; [|apply Hnone].
  destruct (dict_get install_cmd (tool_of list_)) as [sub|] eqn:Hsub; [|apply Hnone].
  eexists [_], _. split; [reflexivity|]. split; [|reflexivity].
  simpl. constructor; [|constructor].
  exists (tool_of list_), sub, text. split; [now apply dict_get_In | reflexivity].
Qed.

Lemma install_loop_shape (w : World) (l : list string) :
  forall st,
  exists evs r,
    for_each l (install_list w) st = (after_all st evs, r)
    /\ Forall known_command (commands evs)
    /\ notices evs = [].
Proof.
  induction l as [|k l IH]; intro st; simpl.
  - exists [], (Return tt). unfold ret. rewrite after_all_nil.
    repeat split. constructor.
  - unfold bind.
    destruct (install_list_shape w k st) as (evs1 & r1 & -> & Hk1 & Hn1).
    destruct r1 as [[]|e].
    + destruct (IH (after_all st evs1)) as (evs2 & r2 & -> & Hk2 & Hn2).
      exists (evs1 ++ evs2), r2. rewrite after_all_app.
      split; [reflexivity|]. rewrite commands_app, notices_app, Hn1, Hn2.
      split; [|reflexivity]. apply Forall_app. now split.
    + now exists evs1, (Raise e).
Qed.


(** X13. A name with [_list] in it whose tool is not in the table,
    [pkg_list] for one, still has its file opened and read: the option is
    passed over in silence when that works, and the file's error leaves the
    loop when the file cannot be opened or decoded.  Nothing is spawned
    either way. *)
Theorem install_list_unknown_tool (w : World) (st : State) (key path : string) :
  Str.contains "_list" key = true ->
  dict_get install_cmd (tool_of key) = None ->
  lookup (config st) "PACKAGES" key = Return path ->
  install_list w key st =
  (st, match read_text w path with
       | Return _ => Return tt
       | Raise e => Raise e
       end).
Proof.
  intros Hc Htool Hv. rewrite install_list_run, Hc, Hv, Htool.
  now destruct (read_text w path).
Qed.

Lemma install_list_unknown_tool_witness :
  install_list (world_of [] 0) "pkg_list" (started list_only) =
  (started list_only, Raise (FileNotFoundError "pkgs.txt"))
  /\ install_list (world_garbled "pkgs.txt" [] 0) "pkg_list" (started list_only) =
     (started list_only, Raise UnicodeDecodeError)
  /\ install_list (world_of [("pkgs.txt", x_y)] 0) "pkg_list" (started list_only) =
     (started list_only, Return tt).
Proof.
  split; [|split].
  - exact (install_list_unknown_tool (world_of [] 0) (started list_only)
             "pkg_list" "pkgs.txt" eq_refl eq_refl eq_refl).
  - exact (install_list_unknown_tool (world_garbled "pkgs.txt" [] 0) (started list_only)
             "pkg_list" "pkgs.txt" eq_refl eq_refl eq_refl).
  - exact (install_list_unknown_tool (world_of [("pkgs.txt", x_y)] 0) (started list_only)
             "pkg_list" "pkgs.txt" eq_refl eq_refl eq_refl).
Defined.





(** X16. Whatever the configuration and the files, [install_from_list] prints
    nothing, and every command it spawns is one of [pip install --user],
    [npm install -g] or [yarn global add] followed by a collapsed text: no
    other tool is ever run. *)
Theorem install_from_list_known_commands (w : World) (st : State) :
  exists cmds,
    commands (log (fst (install_from_list w st))) = commands (log st) ++ cmds
    /\ Forall known_command cmds
    /\ notices (log (fst (install_from_list w st))) = notices (log st).
Proof.
  rewrite install_from_list_run.
  destruct (has_section (config st) "PACKAGES").
  - destruct (install_loop_shape w (options (config st) "PACKAGES") st)
      as (evs & r & -> & Hk & Hn).
    exists (commands evs). simpl.
    now rewrite commands_app, notices_app, Hn, app_nil_r.
  - exists []. simpl. rewrite app_nil_r. repeat split. constructor.
Qed.
